(** * convert_to_pdf.py: Markdown -> HTML (pandoc) -> PDF (WeasyPrint)

    Shallow embedding of the batch converter [src/convert_to_pdf.py].

    - The working directory is a finite map from relative paths to file
      sizes in bytes ([gmap string N]); standard output is the list of
      printed lines, in order.
    - Python exceptions are the values of [PyExc]; code runs in a state and
      exception monad [M]: an uncaught exception keeps the side effects done
      before it was raised, as in Python.
    - The two external tools and the operating system are an environment
      [Env] of oracles: what [subprocess.run] of pandoc does, whether
      [import weasyprint] succeeds, what [HTML(h).write_pdf(p)] does, and
      which removals the OS refuses. Every theorem holds for every
      environment. *)

From Stdlib Require Import ZArith Bool Ascii String.
From stdpp Require Import base gmap strings list pretty.

Open Scope string_scope.

(** ** Python values *)

(** The exceptions the script can meet. All of them are subclasses of
    [Exception] in Python, so [except Exception] catches every one. *)
Inductive PyExc :=
| FileNotFoundError (what : string)
| PermissionError (what : string)
| NotADirectoryError (what : string)
| ImportError (name : string)
| OSError (msg : string)
| RenderError (msg : string).

(** [str(e)] of an exception, as printed by [f"{e}"]. *)
Definition exc_str (e : PyExc) : string :=
  match e with
  | FileNotFoundError p => "[Errno 2] No such file or directory: '" +:+ p +:+ "'"
  | PermissionError p => "[Errno 13] Permission denied: '" +:+ p +:+ "'"
  | NotADirectoryError p => "[Errno 20] Not a directory: '" +:+ p +:+ "'"
  | ImportError n => "No module named '" +:+ n +:+ "'"
  | OSError m => m
  | RenderError m => m
  end.

(** The working directory and standard output. *)
Record world := mkWorld { fs : gmap string N; out : list string }.

(** ** The environment: external tools and the operating system *)

(** What [os.chdir(workdir)] meets: the directory can be entered, does
    not exist, cannot be entered (no search permission), or is a file. *)
Inductive ChdirOutcome :=
| ChdirOk
| ChdirMissing
| ChdirDenied
| ChdirNotADirectory.

(** Why the pandoc executable cannot be launched: there is none on [PATH]
    ([FileNotFoundError]), it is not executable ([PermissionError]), or
    [exec] fails otherwise (an [OSError] such as "Exec format error"). *)
Inductive LaunchError :=
| LaunchNotFound
| LaunchDenied
| LaunchOSError (msg : string).

(** What [subprocess.run(cmd_html, capture_output=True, text=True)] does:
    the executable cannot be launched (Python raises the [OSError] of the
    failed [exec]), or it ran and exited with [returncode], printing
    [stderr], and possibly wrote its output file with the given size. *)
Inductive PandocOutcome :=
| PandocNotLaunched (why : LaunchError)
| PandocRan (returncode : Z) (stderr : string) (html_written : option N).

(** What [HTML(html_file).write_pdf(pdf_file)] does: it writes the PDF with
    the given size, or raises. *)
Inductive RenderOutcome :=
| RenderOk (pdf_size : N)
| RenderRaises (msg : string).

(** What [from weasyprint import HTML] does: it succeeds; it raises an
    [ImportError] (the module, or one it imports, is not installed); or it
    raises another exception, with its message: WeasyPrint is installed but
    its native libraries (pango, gobject) cannot be loaded, an [OSError]. *)
Inductive ImportOutcome :=
| ImportOk
| ImportRaisesImportError
| ImportRaisesOSError (msg : string).

Record Env := {
  chdir_outcome : ChdirOutcome;
  pandoc : list string -> PandocOutcome;
  weasyprint_import : ImportOutcome;
  render : string -> string -> RenderOutcome;
  remove_denied : string -> bool
}.

(** ** A state and exception monad *)

Definition M (A : Type) : Type := world -> (PyExc + A) * world.

Global Instance M_ret : MRet M := fun A a w => (inr a, w).
Global Instance M_bind : MBind M := fun A B k m w =>
  match m w with
  | (inr a, w') => k a w'
  | (inl e, w') => (inl e, w')
  end.

Definition raise {A} (e : PyExc) : M A := fun w => (inl e, w).

(** [try: m except ...: h]; [h] receives the exception. *)
Definition try_except {A} (m : M A) (h : PyExc -> M A) : M A := fun w =>
  match m w with
  | (inl e, w') => h e w'
  | r => r
  end.

(** The exit status of the interpreter: an uncaught exception exits 1. *)
Definition exit_status {A} (r : (PyExc + A) * world) : Z :=
  match fst r with inl _ => 1 | inr _ => 0 end%Z.

(** ** Python strings *)

(** [s * n] for a string [s]. *)
Fixpoint str_repeat (n : nat) (s : string) : string :=
  match n with 0 => "" | S n' => s +:+ str_repeat n' s end.

(** [md_file.replace('.md', '.html')]: Python's [str.replace] scans left to
    right and replaces every non-overlapping occurrence of ['.md']. *)
Fixpoint replace_md_html (s : string) : string :=
  match s with
  | String c rest =>
      match rest with
      | String m (String d rest') =>
          if Ascii.eqb c "."%char && Ascii.eqb m "m"%char && Ascii.eqb d "d"%char
          then ".html" +:+ replace_md_html rest'
          else String c (replace_md_html rest)
      | _ => String c (replace_md_html rest)
      end
  | EmptyString => EmptyString
  end.

(** [sub in s] for strings. *)
Fixpoint str_contains (sub s : string) : bool :=
  String.prefix sub s ||
  match s with EmptyString => false | String _ r => str_contains sub r end.

(** [f"{num / den:.2f}"] for integers [num >= 0], [den > 0], [num] below
    2^53: the division is exact in binary floating point and [:.2f]
    rounds the exact value half to even. *)
Definition round_half_even (num den : Z) : Z :=
  let q := (num / den)%Z in
  let r := (num mod den)%Z in
  if (2 * r <? den)%Z then q
  else if (den <? 2 * r)%Z then (q + 1)%Z
  else if Z.even q then q else (q + 1)%Z.

Definition two_digits (k : Z) : string :=
  if (k <? 10)%Z then "0" +:+ pretty k else pretty k.

Definition fmt_2f (num den : Z) : string :=
  let n := round_half_even (100 * num) den in
  pretty (n / 100)%Z +:+ "." +:+ two_digits (n mod 100)%Z.

(** [size_mb = st_size / (1024 * 1024)] printed with [:.2f]. *)
Definition fmt_mb (sz : N) : string := fmt_2f (Z.of_N sz) (1024 * 1024).

Definition newline : string := String (Ascii.ascii_of_nat 10) "".

(** ** The operations the script calls *)

(** The working directory the script switches to. *)
Definition workdir : string := "/Users/michelebigi/VisualStudioCode/GitHub/IOC_Config".

(** The job list of [main]: (Markdown source, PDF target). *)
Definition documents : list (string * string) :=
  [("REFERENCE_MANUAL.md", "REFERENCE_MANUAL.pdf");
   ("IMPLEMENTATION_GUIDE.md", "IMPLEMENTATION_GUIDE.pdf");
   ("ARCHITECTURE.md", "ARCHITECTURE.pdf")].

(** The double-quote character. *)
Definition dquote : string := String (Ascii.ascii_of_nat 34) "".

(** The pandoc command line of [markdown_to_pdf]. *)
Definition cmd_html (md_file html_file : string) : list string :=
  ["pandoc"; "-f"; "markdown"; "-t"; "html"; md_file; "-o"; html_file;
   "--css=style.css";
   "--metadata"; "title=" +:+ dquote +:+ "IOC_Config Documentation" +:+ dquote;
   "--metadata"; "author=" +:+ dquote +:+ "Michele Bigi" +:+ dquote;
   "--self-contained"].

(** Which branch of [main]'s loop a job took. The script only keeps the two
    counters; this record of the branch is instrumentation, returned by the
    model of [main] (which returns [None] in Python) so that claims about
    "the result of a job" can be stated. [ConversionFailed] is the branch
    where [markdown_to_pdf] returned [False]. *)
Inductive JobResult := Succeeded | SourceMissing | ConversionFailed.

Section Program.
Context (E : Env).

Definition py_print (s : string) : M unit := fun w =>
  (inr tt, mkWorld (fs w) (app (out w) [s])).

(** [Path(p).exists()]. *)
Definition path_exists (p : string) : M bool := fun w =>
  (inr (bool_decide (is_Some (fs w !! p))), w).

(** [Path(p).stat().st_size]. *)
Definition stat_size (p : string) : M N := fun w =>
  match fs w !! p with
  | Some n => (inr n, w)
  | None => (inl (FileNotFoundError p), w)
  end.

(** [os.chdir(workdir)]; the model's file map is relative to it. *)
Definition os_chdir : M unit :=
  match chdir_outcome E with
  | ChdirOk => mret tt
  | ChdirMissing => raise (FileNotFoundError workdir)
  | ChdirDenied => raise (PermissionError workdir)
  | ChdirNotADirectory => raise (NotADirectoryError workdir)
  end.

(** [os.remove(p)]. *)
Definition os_remove (p : string) : M unit := fun w =>
  match fs w !! p with
  | None => (inl (FileNotFoundError p), w)
  | Some _ =>
      if remove_denied E p then (inl (PermissionError p), w)
      else (inr tt, mkWorld (delete p (fs w)) (out w))
  end.

(** The exception [subprocess.run] raises when [exec] of pandoc fails. *)
Definition launch_exc (why : LaunchError) : PyExc :=
  match why with
  | LaunchNotFound => FileNotFoundError "pandoc"
  | LaunchDenied => PermissionError "pandoc"
  | LaunchOSError m => OSError m
  end.

(** [subprocess.run(cmd, capture_output=True, text=True)], returning the
    [returncode] and [stderr] of the result. *)
Definition subprocess_run (cmd : list string) (target : string) : M (Z * string) :=
  fun w =>
  match pandoc E cmd with
  | PandocNotLaunched why => (inl (launch_exc why), w)
  | PandocRan rc err None => (inr (rc, err), w)
  | PandocRan rc err (Some sz) => (inr (rc, err), mkWorld (<[target:=sz]> (fs w)) (out w))
  end.

(** [from weasyprint import HTML]. *)
Definition import_weasyprint : M unit :=
  match weasyprint_import E with
  | ImportOk => mret tt
  | ImportRaisesImportError => raise (ImportError "weasyprint")
  | ImportRaisesOSError m => raise (OSError m)
  end.

(** [HTML(html_file).write_pdf(pdf_file)]. *)
Definition write_pdf (html_file pdf_file : string) : M unit := fun w =>
  match render E html_file pdf_file with
  | RenderOk sz => (inr tt, mkWorld (<[pdf_file:=sz]> (fs w)) (out w))
  | RenderRaises m => (inl (RenderError m), w)
  end.

(** ** [markdown_to_pdf] *)

Definition markdown_to_pdf (md_file pdf_file : string) : M bool :=
  py_print ("Converting " +:+ md_file +:+ " to PDF...");;
  let html_file := replace_md_html md_file in
  py_print "  Step 1: Generating HTML from Markdown...";;
  '(returncode, stderr) ← subprocess_run (cmd_html md_file html_file) html_file;
  if negb (Z.eqb returncode 0) then
    py_print ("Error converting to HTML: " +:+ stderr);;
    mret false
  else
    py_print ("  ✓ HTML generated: " +:+ html_file);;
    try_except
      (import_weasyprint;;
       py_print "  Step 2: Converting HTML to PDF...";;
       write_pdf html_file pdf_file;;
       py_print ("  ✓ PDF generated: " +:+ pdf_file);;
       os_remove html_file;;
       py_print "  ✓ Cleaned up temporary HTML file";;
       mret true)
      (fun e =>
         match e with
         | ImportError _ =>
             py_print "Error: WeasyPrint not installed. Run: pip install weasyprint";;
             mret false
         | _ =>
             py_print ("Error converting to PDF: " +:+ exc_str e);;
             mret false
         end).

(** ** [main] *)

(** The loop state: [success_count], [fail_count] and the branch record. *)
Definition counters : Type := nat * nat * list ((string * string) * JobResult).

(** One iteration of [for md_file, pdf_file in documents]. *)
Definition job_step (acc : counters) (job : string * string) : M counters :=
  let '(success_count, fail_count, results) := acc in
  let '(md_file, pdf_file) := job in
  found ← path_exists md_file;
  if (found : bool) then
    converted ← markdown_to_pdf md_file pdf_file;
    if (converted : bool) then
      py_print "";; mret (S success_count, fail_count, app results [(job, Succeeded)])
    else
      py_print "";; mret (success_count, S fail_count, app results [(job, ConversionFailed)])
  else
    py_print ("⚠ File not found: " +:+ md_file);;
    py_print "";;
    mret (success_count, S fail_count, app results [(job, SourceMissing)]).

Fixpoint convert_all (docs : list (string * string)) (acc : counters) : M counters :=
  match docs with
  | [] => mret acc
  | job :: rest => acc' ← job_step acc job; convert_all rest acc'
  end.

(** One line of the "Generated PDF files" listing. *)
Definition list_pdf (pdf_file : string) : M unit :=
  found ← path_exists pdf_file;
  if (found : bool) then
    sz ← stat_size pdf_file;
    py_print ("  ✓ " +:+ pdf_file +:+ " (" +:+ fmt_mb sz +:+ " MB)")
  else
    py_print ("  ✗ " +:+ pdf_file +:+ " (NOT FOUND)").

Fixpoint list_pdfs (docs : list (string * string)) : M unit :=
  match docs with
  | [] => mret tt
  | (_, pdf_file) :: rest => list_pdf pdf_file;; list_pdfs rest
  end.

Definition rule : string := str_repeat 60 "=".

Definition summary_line (success_count fail_count : nat) : string :=
  "Summary: " +:+ pretty success_count +:+ " successful, " +:+
  pretty fail_count +:+ " failed".

(** [main] over a job list; the script runs it on [documents]. *)
Definition main_with (docs : list (string * string)) : M counters :=
  os_chdir;;
  py_print rule;;
  py_print "IOC_Config Documentation - PDF Generation";;
  py_print rule;;
  py_print "";;
  '(success_count, fail_count, results) ← convert_all docs ((0, 0, []) : counters);
  py_print rule;;
  py_print (summary_line success_count fail_count);;
  py_print rule;;
  py_print (newline +:+ "Generated PDF files:");;
  list_pdfs docs;;
  mret (success_count, fail_count, results).

Definition main : M counters := main_with documents.

End Program.

(** ** Reasoning about the monad *)

Ltac unfold_prog :=
  unfold job_step, markdown_to_pdf, path_exists, stat_size, subprocess_run,
    py_print, try_except, import_weasyprint, write_pdf, os_remove, raise,
    mbind, M_bind, mret, M_ret in *.

Lemma convert_all_cons E job rest acc w :
  convert_all E (job :: rest) acc w =
  match job_step E acc job w with
  | (inr acc', w') => convert_all E rest acc' w'
  | (inl e, w') => (inl e, w')
  end.
Proof. reflexivity. Qed.

Lemma convert_all_app E l1 l2 acc w :
  convert_all E (l1 ++ l2) acc w =
  match convert_all E l1 acc w with
  | (inr acc', w') => convert_all E l2 acc' w'
  | (inl e, w') => (inl e, w')
  end.
Proof.
  revert acc w; induction l1 as [|job l1 IH]; intros acc w; [reflexivity|].
  cbn [app]. rewrite !convert_all_cons.
  destruct (job_step E acc job w) as [[e|acc'] w']; [reflexivity|apply IH].
Qed.

(** A job whose source is missing prints two lines, changes no file, and
    counts as failed. *)
Lemma job_step_missing E s f rs md pdf w :
  fs w !! md = None ->
  job_step E (s, f, rs) (md, pdf) w =
  (inr (s, S f, app rs [((md, pdf), SourceMissing)]),
   mkWorld (fs w) (app (app (out w) ["⚠ File not found: " +:+ md]) [""])).
Proof. intros Hmd. unfold_prog. cbn. rewrite Hmd. reflexivity. Qed.

(** The file map after pandoc's run: its output file, if it wrote one. *)
Definition pandoc_writes (html_file : string) (wr : option N) (m : gmap string N)
  : gmap string N :=
  match wr with Some sz => <[html_file:=sz]> m | None => m end.

Lemma job_step_present E s f rs md pdf w :
  is_Some (fs w !! md) ->
  job_step E (s, f, rs) (md, pdf) w =
  match markdown_to_pdf E md pdf w with
  | (inr true, w') =>
      (inr (S s, f, app rs [((md, pdf), Succeeded)]), mkWorld (fs w') (app (out w') [""]))
  | (inr false, w') =>
      (inr (s, S f, app rs [((md, pdf), ConversionFailed)]), mkWorld (fs w') (app (out w') [""]))
  | (inl e, w') => (inl e, w')
  end.
Proof.
  intros [x Hmd]. unfold job_step, path_exists, mbind, M_bind. cbn. rewrite Hmd. cbn.
  destruct (markdown_to_pdf E md pdf w) as [[e|[|]] w']; reflexivity.
Qed.

(** pandoc exits non-zero: [markdown_to_pdf] prints the captured stderr and
    returns [False]; only pandoc's own output file may have been written. *)
Lemma m2p_html_error E md pdf w rc err wr :
  pandoc E (cmd_html md (replace_md_html md)) = PandocRan rc err wr ->
  rc <> 0%Z ->
  fst (markdown_to_pdf E md pdf w) = inr false /\
  fs (snd (markdown_to_pdf E md pdf w)) = pandoc_writes (replace_md_html md) wr (fs w) /\
  In ("Error converting to HTML: " +:+ err) (out (snd (markdown_to_pdf E md pdf w))).
Proof.
  intros Hp Hrc. apply Z.eqb_neq in Hrc.
  unfold_prog. cbn. rewrite Hp.
  destruct wr as [hs|]; cbn; rewrite Hrc; cbn;
    (split; [reflexivity|split; [reflexivity|]]);
    apply in_or_app; right; left; reflexivity.
Qed.

(** The rendering step raises (the import of WeasyPrint raises, or
    [write_pdf] raises): the exception is caught, an error is printed and
    [False] returned; the HTML file pandoc wrote is left in place. *)
Lemma m2p_render_error E md pdf w err wr :
  pandoc E (cmd_html md (replace_md_html md)) = PandocRan 0 err wr ->
  (weasyprint_import E <> ImportOk \/
   exists msg, render E (replace_md_html md) pdf = RenderRaises msg) ->
  fst (markdown_to_pdf E md pdf w) = inr false /\
  fs (snd (markdown_to_pdf E md pdf w)) = pandoc_writes (replace_md_html md) wr (fs w) /\
  (weasyprint_import E = ImportRaisesImportError ->
   In "Error: WeasyPrint not installed. Run: pip install weasyprint"
      (out (snd (markdown_to_pdf E md pdf w)))) /\
  (forall msg, weasyprint_import E = ImportRaisesOSError msg ->
   In ("Error converting to PDF: " +:+ msg) (out (snd (markdown_to_pdf E md pdf w)))) /\
  (forall msg, weasyprint_import E = ImportOk ->
   render E (replace_md_html md) pdf = RenderRaises msg ->
   In ("Error converting to PDF: " +:+ msg) (out (snd (markdown_to_pdf E md pdf w)))).
Proof.
  intros Hp Hr.
  unfold_prog. cbn. rewrite Hp.
  destruct (weasyprint_import E) as [ | | m] eqn:Hw.
  - destruct Hr as [Hn|[msg Hm]]; [congruence|].
    destruct wr as [hs|]; cbn; rewrite Hm; cbn;
      (split; [reflexivity|split; [reflexivity|split; [|split]]]);
      try (intros; discriminate);
      intros msg' _ Hm'; assert (msg' = msg) as -> by congruence;
      apply in_or_app; right; left; reflexivity.
  - destruct wr as [hs|]; cbn;
      (split; [reflexivity|split; [reflexivity|split; [|split]]]);
      try (intros; discriminate);
      intros; apply in_or_app; right; left; reflexivity.
  - destruct wr as [hs|]; cbn;
      (split; [reflexivity|split; [reflexivity|split; [|split]]]);
      try (intros; discriminate);
      intros msg' Hm'; injection Hm' as ->;
      apply in_or_app; right; left; reflexivity.
Qed.

(** Both external steps and the cleanup succeed. *)
Lemma m2p_success E md pdf w err hs sz :
  replace_md_html md <> pdf ->
  pandoc E (cmd_html md (replace_md_html md)) = PandocRan 0 err (Some hs) ->
  weasyprint_import E = ImportOk ->
  render E (replace_md_html md) pdf = RenderOk sz ->
  remove_denied E (replace_md_html md) = false ->
  fst (markdown_to_pdf E md pdf w) = inr true /\
  fs (snd (markdown_to_pdf E md pdf w)) =
    delete (replace_md_html md) (<[pdf:=sz]> (<[replace_md_html md:=hs]> (fs w))).
Proof.
  intros Hne Hp Hw Hr Hd.
  unfold_prog. cbn. rewrite Hp. cbn. rewrite Hw. cbn. rewrite Hr. cbn.
  rewrite lookup_insert_ne by congruence. rewrite lookup_insert_eq. cbn.
  rewrite Hd. cbn. split; reflexivity.
Qed.

(** The PDF was written but [os.remove] of the HTML file is refused: the
    [PermissionError] is caught by [except Exception] and [False] returned;
    the HTML file stays. *)
Lemma m2p_remove_refused E md pdf w err hs sz :
  replace_md_html md <> pdf ->
  pandoc E (cmd_html md (replace_md_html md)) = PandocRan 0 err (Some hs) ->
  weasyprint_import E = ImportOk ->
  render E (replace_md_html md) pdf = RenderOk sz ->
  remove_denied E (replace_md_html md) = true ->
  fst (markdown_to_pdf E md pdf w) = inr false /\
  fs (snd (markdown_to_pdf E md pdf w)) =
    <[pdf:=sz]> (<[replace_md_html md:=hs]> (fs w)).
Proof.
  intros Hne Hp Hw Hr Hd.
  unfold_prog. cbn. rewrite Hp. cbn. rewrite Hw. cbn. rewrite Hr. cbn.
  rewrite lookup_insert_ne by congruence. rewrite lookup_insert_eq. cbn.
  rewrite Hd. cbn. split; reflexivity.
Qed.

(** [markdown_to_pdf] lets an exception escape only when pandoc cannot be
    launched: [subprocess.run] is outside the [try]; the exception is the
    one of the failed launch. *)
Lemma m2p_raises E md pdf w e :
  fst (markdown_to_pdf E md pdf w) = inl e ->
  exists why, pandoc E (cmd_html md (replace_md_html md)) = PandocNotLaunched why /\
    e = launch_exc why.
Proof.
  unfold_prog. cbn.
  destruct (pandoc E _) as [why|rc err [hs|]];
    [cbn; intros H; injection H as <-; exists why; split; reflexivity| |];
    cbn; destruct (negb (rc =? 0)%Z); cbn; [discriminate| |discriminate|];
    destruct (weasyprint_import E); cbn; try discriminate;
    destruct (render E _ _); cbn; try discriminate;
    repeat case_match; cbn; discriminate.
Qed.

(** [markdown_to_pdf] writes only the HTML file and the PDF file. *)
Lemma m2p_frame E md pdf w p :
  p <> replace_md_html md -> p <> pdf ->
  fs (snd (markdown_to_pdf E md pdf w)) !! p = fs w !! p.
Proof.
  intros Hh Hp. unfold_prog. cbn.
  destruct (pandoc E _) as [why|rc err [hs|]]; [reflexivity| |];
    cbn; destruct (negb (rc =? 0)%Z); cbn;
    rewrite ?lookup_insert_ne by congruence; try reflexivity;
    destruct (weasyprint_import E); cbn;
    rewrite ?lookup_insert_ne by congruence; try reflexivity;
    destruct (render E _ _); cbn;
    rewrite ?lookup_insert_ne by congruence; try reflexivity;
    repeat case_match; simplify_eq/=;
    rewrite ?lookup_delete_ne, ?lookup_insert_ne by congruence; reflexivity.
Qed.

Lemma job_step_raises E acc md pdf w e :
  fst (job_step E acc (md, pdf) w) = inl e ->
  exists why, pandoc E (cmd_html md (replace_md_html md)) = PandocNotLaunched why /\
    e = launch_exc why.
Proof.
  destruct acc as [[s f] rs].
  destruct (fs w !! md) eqn:Hmd.
  - rewrite job_step_present by (rewrite Hmd; eexists; reflexivity).
    destruct (markdown_to_pdf E md pdf w) as [[e'|[|]] w'] eqn:Hm; cbn; try discriminate.
    intros H; injection H as <-. eapply (m2p_raises E md pdf w e'). rewrite Hm. reflexivity.
  - rewrite job_step_missing by exact Hmd. discriminate.
Qed.

Lemma job_step_frame E acc md pdf w p :
  p <> replace_md_html md -> p <> pdf ->
  fs (snd (job_step E acc (md, pdf) w)) !! p = fs w !! p.
Proof.
  intros Hh Hp. destruct acc as [[s f] rs].
  destruct (fs w !! md) eqn:Hmd.
  - rewrite job_step_present by (rewrite Hmd; eexists; reflexivity).
    pose proof (m2p_frame E md pdf w p Hh Hp) as Hf.
    destruct (markdown_to_pdf E md pdf w) as [[e'|[|]] w'] eqn:Hm; exact Hf.
  - rewrite job_step_missing by exact Hmd. reflexivity.
Qed.

(** A job that returns normally increments exactly one counter and appends
    its own branch to the record. *)
Lemma job_step_counts E s f rs job w acc' w' :
  job_step E (s, f, rs) job w = (inr acc', w') ->
  (acc' = (S s, f, app rs [(job, Succeeded)])) \/
  (exists r, r <> Succeeded /\ acc' = (s, S f, app rs [(job, r)])).
Proof.
  destruct job as [md pdf].
  destruct (fs w !! md) eqn:Hmd.
  - rewrite job_step_present by (rewrite Hmd; eexists; reflexivity).
    destruct (markdown_to_pdf E md pdf w) as [[e'|[|]] w'']; intros H;
      [discriminate| injection H as <- _; left; reflexivity|injection H as <- _].
    right. exists ConversionFailed. split; [discriminate|reflexivity].
  - rewrite job_step_missing by exact Hmd. intros H; injection H as <- _.
    right. exists SourceMissing. split; [discriminate|reflexivity].
Qed.

(** [p] is neither the HTML file nor the PDF file of any job of [docs]. *)
Definition untouched (p : string) (docs : list (string * string)) : bool :=
  forallb (fun job => bool_decide (p <> replace_md_html job.1) && bool_decide (p <> job.2)) docs.

Lemma convert_all_frame E docs acc w p :
  untouched p docs = true ->
  fs (snd (convert_all E docs acc w)) !! p = fs w !! p.
Proof.
  revert acc w; induction docs as [|[md pdf] rest IH]; intros acc w Hu; [reflexivity|].
  cbn in Hu. apply andb_true_iff in Hu as [Hj Hu].
  apply andb_true_iff in Hj as [Hh Hp].
  apply bool_decide_eq_true_1 in Hh, Hp.
  rewrite convert_all_cons.
  pose proof (job_step_frame E acc md pdf w p Hh Hp) as Hf.
  destruct (job_step E acc (md, pdf) w) as [[e|acc'] w'].
  - exact Hf.
  - rewrite IH by exact Hu. exact Hf.
Qed.

Lemma convert_all_ok E docs s f rs w s' f' rs' w' :
  convert_all E docs (s, f, rs) w = (inr (s', f', rs'), w') ->
  s' + f' = s + f + length docs /\
  exists rs2, rs' = app rs rs2 /\ map fst rs2 = docs.
Proof.
  revert s f rs w; induction docs as [|job rest IH]; intros s f rs w H.
  - cbn in H. injection H as <- <- <- _. split; [cbn; lia|]. exists nil. split; [|reflexivity].
    rewrite app_nil_r. reflexivity.
  - rewrite convert_all_cons in H.
    destruct (job_step E (s, f, rs) job w) as [[e|acc1] w1] eqn:Hj; [discriminate|].
    apply job_step_counts in Hj as [->|[r [_ ->]]];
      apply IH in H as [Hc [rs2 [-> Hm]]]; cbn [length]; (split; [lia|]);
      eexists; (split; [rewrite <- app_assoc; reflexivity|]); cbn; rewrite Hm; reflexivity.
Qed.

Lemma convert_all_raises E docs acc w e :
  fst (convert_all E docs acc w) = inl e ->
  exists md pdf why, In (md, pdf) docs /\
    pandoc E (cmd_html md (replace_md_html md)) = PandocNotLaunched why /\
    e = launch_exc why.
Proof.
  revert acc w; induction docs as [|[md pdf] rest IH]; intros acc w H; [discriminate|].
  rewrite convert_all_cons in H.
  destruct (job_step E acc (md, pdf) w) as [[e'|acc1] w1] eqn:Hj.
  - cbn in H. injection H as <-.
    destruct (job_step_raises E acc md pdf w e') as [why [Hp He]]; [rewrite Hj; reflexivity|].
    exists md, pdf, why. split; [left; reflexivity|]. auto.
  - apply IH in H as [md' [pdf' [why [Hin Hp]]]]. exists md', pdf', why. split; [right|]; assumption.
Qed.

(** A run over [pre ++ job :: post] that completes goes through [job]. *)
Lemma convert_all_focus E pre job post acc w r wF :
  convert_all E (pre ++ job :: post) acc w = (inr r, wF) ->
  exists acc1 w1 acc2 w2,
    convert_all E pre acc w = (inr acc1, w1) /\
    job_step E acc1 job w1 = (inr acc2, w2) /\
    convert_all E post acc2 w2 = (inr r, wF).
Proof.
  rewrite convert_all_app.
  destruct (convert_all E pre acc w) as [[e|acc1] w1] eqn:H1; [discriminate|].
  rewrite convert_all_cons.
  destruct (job_step E acc1 job w1) as [[e|acc2] w2] eqn:H2; [discriminate|].
  intros H. exists acc1, w1, acc2, w2. auto.
Qed.

(** The line the listing prints for [pdf_file], given the final files: its
    size in megabytes when it exists, a NOT FOUND marker otherwise. *)
Definition listing_line (m : gmap string N) (pdf_file : string) : string :=
  match m !! pdf_file with
  | Some sz => "  ✓ " +:+ pdf_file +:+ " (" +:+ fmt_mb sz +:+ " MB)"
  | None => "  ✗ " +:+ pdf_file +:+ " (NOT FOUND)"
  end.

Lemma list_pdfs_run docs w :
  list_pdfs docs w =
  (inr tt, mkWorld (fs w) (app (out w) (map (listing_line (fs w)) (map snd docs)))).
Proof.
  revert w; induction docs as [|[md pdf] rest IH]; intros w.
  - cbn. rewrite app_nil_r. destruct w; reflexivity.
  - cbn [list_pdfs]. unfold list_pdf, path_exists, stat_size, py_print, mbind, M_bind. cbn.
    unfold listing_line at 1.
    destruct (fs w !! pdf) as [sz|] eqn:Hp; cbn; rewrite ?Hp; cbn; rewrite IH; cbn;
      rewrite <- app_assoc; reflexivity.
Qed.

Definition banner : list string :=
  [rule; "IOC_Config Documentation - PDF Generation"; rule; ""].

Definition report (s f : nat) : list string :=
  [rule; summary_line s f; rule; newline +:+ "Generated PDF files:"].

(** [main_with] in one piece: [os.chdir], the banner, the loop, and on
    normal completion the summary and the listing. *)
Lemma main_with_eq E docs w0 :
  main_with E docs w0 =
  match chdir_outcome E with
  | ChdirOk =>
    match convert_all E docs (0, 0, []) (mkWorld (fs w0) (app (out w0) banner)) with
    | (inl e, w') => (inl e, w')
    | (inr (s, f, rs), w') =>
        (inr (s, f, rs),
         mkWorld (fs w')
           (app (app (out w') (report s f)) (map (listing_line (fs w')) (map snd docs))))
    end
  | ChdirMissing => (inl (FileNotFoundError workdir), w0)
  | ChdirDenied => (inl (PermissionError workdir), w0)
  | ChdirNotADirectory => (inl (NotADirectoryError workdir), w0)
  end.
Proof.
  unfold main_with, os_chdir.
  destruct (chdir_outcome E); [|reflexivity..].
  unfold py_print, mbind, M_bind, mret, M_ret. cbn -[rule convert_all list_pdfs].
  replace (app (app (app (app (out w0) [rule]) ["IOC_Config Documentation - PDF Generation"]) [rule]) [""])
    with (app (out w0) banner) by (rewrite <- !app_assoc; reflexivity).
  destruct (convert_all E docs (0, 0, []) (mkWorld (fs w0) (app (out w0) banner))) as [[e|[[s f] rs]] w']; [reflexivity|].
  cbn -[rule convert_all list_pdfs]. rewrite list_pdfs_run. cbn -[rule].
  unfold report. rewrite <- !app_assoc. reflexivity.
Qed.

(** A completed run of [main_with]: [os.chdir] entered the working directory, the loop
    returned normally, and the summary and listing were printed after it. *)
Lemma main_with_completes E docs w0 s f rs wF :
  main_with E docs w0 = (inr (s, f, rs), wF) ->
  chdir_outcome E = ChdirOk /\
  exists w2,
    convert_all E docs (0, 0, []) (mkWorld (fs w0) (app (out w0) banner)) = (inr (s, f, rs), w2) /\
    fs wF = fs w2 /\
    out wF = app (app (out w2) (report s f)) (map (listing_line (fs w2)) (map snd docs)).
Proof.
  rewrite main_with_eq. destruct (chdir_outcome E); [|discriminate..].
  destruct (convert_all E docs (0, 0, []) _) as [[e|[[s' f'] rs']] w2] eqn:Hc; [discriminate|].
  intros H. injection H as <- <- <- <-. split; [reflexivity|].
  exists w2. auto.
Qed.

(** Inside a completed run, the job [(md, pdf)] ran on a state where its
    source is as in the initial state; what it recorded is in the final
    record, and files no later job writes keep the value it left. *)
Lemma run_focus E pre md pdf post w0 s f rs wF :
  untouched md pre = true ->
  main_with E (app pre ((md, pdf) :: post)) w0 = (inr (s, f, rs), wF) ->
  exists s1 f1 rs1 w1 acc2 w2,
    fs w1 !! md = fs w0 !! md /\
    job_step E (s1, f1, rs1) (md, pdf) w1 = (inr acc2, w2) /\
    (forall r, acc2.2 = app rs1 [((md, pdf), r)] -> In ((md, pdf), r) rs) /\
    (forall p, untouched p post = true -> fs wF !! p = fs w2 !! p).
Proof.
  intros Hu Hm. apply main_with_completes in Hm as [_ [w2 [Hc [HF _]]]].
  apply convert_all_focus in Hc as [[[s1 f1] rs1] [w1 [acc2 [w3 [H1 [H2 H3]]]]]].
  exists s1, f1, rs1, w1, acc2, w3. split; [|split; [exact H2|split]].
  - pose proof (convert_all_frame E pre (0, 0, []) (mkWorld (fs w0) (app (out w0) banner)) md Hu) as Hf.
    rewrite H1 in Hf. exact Hf.
  - intros r Hr. destruct acc2 as [[s2 f2] rs2]. cbn in Hr. subst rs2.
    apply convert_all_ok in H3 as [_ [rs3 [-> _]]].
    apply in_or_app. left. apply in_or_app. right. left. reflexivity.
  - intros p Hp. rewrite HF.
    pose proof (convert_all_frame E post acc2 w3 p Hp) as Hf. rewrite H3 in Hf. exact Hf.
Qed.

(** The jobs of [documents]: for each, the jobs before it never write its
    source, the jobs after it never write its HTML or PDF file, and its HTML
    file is not its PDF file. *)
Lemma documents_focus md pdf :
  In (md, pdf) documents ->
  exists pre post, documents = app pre ((md, pdf) :: post) /\
    untouched md pre = true /\
    untouched (replace_md_html md) post = true /\ untouched pdf post = true /\
    replace_md_html md <> pdf.
Proof.
  intros Hin.
  destruct Hin as [H|[H|[H|[]]]]; injection H as <- <-.
  - exists [], (drop 1 documents). vm_compute. repeat split; discriminate.
  - exists (take 1 documents), (drop 2 documents). vm_compute. repeat split; discriminate.
  - exists (take 2 documents), []. vm_compute. repeat split; discriminate.
Qed.

Lemma job_step_m2p_false E s f rs md pdf w :
  is_Some (fs w !! md) ->
  fst (markdown_to_pdf E md pdf w) = inr false ->
  job_step E (s, f, rs) (md, pdf) w =
  (inr (s, S f, app rs [((md, pdf), ConversionFailed)]),
   mkWorld (fs (snd (markdown_to_pdf E md pdf w)))
           (app (out (snd (markdown_to_pdf E md pdf w))) [""])).
Proof.
  intros Hmd Hf. rewrite job_step_present by exact Hmd.
  destruct (markdown_to_pdf E md pdf w) as [r w']; cbn in Hf; subst r. reflexivity.
Qed.

Lemma job_step_m2p_true E s f rs md pdf w :
  is_Some (fs w !! md) ->
  fst (markdown_to_pdf E md pdf w) = inr true ->
  job_step E (s, f, rs) (md, pdf) w =
  (inr (S s, f, app rs [((md, pdf), Succeeded)]),
   mkWorld (fs (snd (markdown_to_pdf E md pdf w)))
           (app (out (snd (markdown_to_pdf E md pdf w))) [""])).
Proof.
  intros Hmd Hf. rewrite job_step_present by exact Hmd.
  destruct (markdown_to_pdf E md pdf w) as [r w']; cbn in Hf; subst r. reflexivity.
Qed.

(** ** The claims *)

(** C4: a job whose Markdown source does not exist takes the SourceMissing
    branch: the failure counter goes up, no file is created or changed, and
    the loop goes on with the next job. *)
Theorem missing_source_skipped E md pdf rest s f rs w :
  fs w !! md = None ->
  convert_all E ((md, pdf) :: rest) (s, f, rs) w =
  convert_all E rest (s, S f, app rs [((md, pdf), SourceMissing)])
    (mkWorld (fs w) (app (app (out w) ["⚠ File not found: " +:+ md]) [""])).
Proof.
  intros Hmd. rewrite convert_all_cons, job_step_missing by exact Hmd. reflexivity.
Qed.

(** C2: when pandoc exits with a non-zero status, the job is recorded as a
    conversion failure, the captured stderr is printed, no PDF is written
    (the only file that may change is pandoc's own output file), and the
    loop goes on with the next job. *)
Theorem html_failure_recorded E md pdf rest s f rs w rc err wr :
  is_Some (fs w !! md) ->
  pandoc E (cmd_html md (replace_md_html md)) = PandocRan rc err wr ->
  rc <> 0%Z ->
  exists w',
    convert_all E ((md, pdf) :: rest) (s, f, rs) w =
      convert_all E rest (s, S f, app rs [((md, pdf), ConversionFailed)]) w' /\
    fs w' = pandoc_writes (replace_md_html md) wr (fs w) /\
    (replace_md_html md <> pdf -> fs w' !! pdf = fs w !! pdf) /\
    In ("Error converting to HTML: " +:+ err) (out w').
Proof.
  intros Hmd Hp Hrc.
  destruct (m2p_html_error E md pdf w rc err wr Hp Hrc) as [Hf [Hfs Hout]].
  eexists. rewrite convert_all_cons, job_step_m2p_false by assumption.
  split; [reflexivity|]. cbn. split; [exact Hfs|split].
  - intros Hne. rewrite Hfs. destruct wr; cbn; [|reflexivity].
    rewrite lookup_insert_ne by congruence. reflexivity.
  - apply in_or_app. left. exact Hout.
Qed.

(** C3: when the rendering step raises (the import of WeasyPrint raises an
    [ImportError] or another exception such as the [OSError] of missing
    native libraries, or [write_pdf] raises), the exception is caught, an
    error is printed, the job is recorded as a conversion failure, and the
    loop goes on with the next job. *)
Theorem render_exception_caught E md pdf rest s f rs w err wr :
  is_Some (fs w !! md) ->
  pandoc E (cmd_html md (replace_md_html md)) = PandocRan 0 err wr ->
  (weasyprint_import E <> ImportOk \/
   exists msg, render E (replace_md_html md) pdf = RenderRaises msg) ->
  exists w',
    convert_all E ((md, pdf) :: rest) (s, f, rs) w =
      convert_all E rest (s, S f, app rs [((md, pdf), ConversionFailed)]) w' /\
    (weasyprint_import E = ImportRaisesImportError ->
     In "Error: WeasyPrint not installed. Run: pip install weasyprint" (out w')) /\
    (forall msg, weasyprint_import E = ImportRaisesOSError msg ->
     In ("Error converting to PDF: " +:+ msg) (out w')) /\
    (forall msg, weasyprint_import E = ImportOk ->
     render E (replace_md_html md) pdf = RenderRaises msg ->
     In ("Error converting to PDF: " +:+ msg) (out w')).
Proof.
  intros Hmd Hp Hr.
  destruct (m2p_render_error E md pdf w err wr Hp Hr) as [Hf [_ [Hi [Ho Hm]]]].
  eexists. rewrite convert_all_cons, job_step_m2p_false by assumption.
  split; [reflexivity|]. cbn. split; [|split].
  - intros Hw. apply in_or_app. left. exact (Hi Hw).
  - intros msg Hw. apply in_or_app. left. exact (Ho msg Hw).
  - intros msg Hw Hm'. apply in_or_app. left. exact (Hm msg Hw Hm').
Qed.

(** C5: whatever each job does, a run that reaches the summary prints
    success and failure counts adding up to the number of jobs. *)
Theorem summary_counts_total E docs w0 s f rs wF :
  main_with E docs w0 = (inr (s, f, rs), wF) ->
  s + f = length docs /\ In (summary_line s f) (out wF).
Proof.
  intros Hm. apply main_with_completes in Hm as [_ [w2 [Hc [_ Hout]]]].
  apply convert_all_ok in Hc as [Hcount _]. split; [lia|].
  rewrite Hout. apply in_or_app. left. apply in_or_app. right. right. left. reflexivity.
Qed.

(** C6 (as the code does it): when [os.chdir] enters the working directory
    and pandoc can be launched, the script exits with status 0, however many
    jobs fail (missing sources, non-zero pandoc exits, WeasyPrint missing or
    broken, rendering or cleanup errors). *)
Theorem exit_zero_when_launchable E docs w0 :
  chdir_outcome E = ChdirOk ->
  (forall cmd why, pandoc E cmd <> PandocNotLaunched why) ->
  exit_status (main_with E docs w0) = 0%Z.
Proof.
  intros Hwd Hp. rewrite main_with_eq, Hwd.
  destruct (convert_all E docs (0, 0, []) (mkWorld (fs w0) (app (out w0) banner)))
    as [[e|[[s f] rs]] w'] eqn:Hc; [|reflexivity].
  exfalso. assert (Hr : fst (convert_all E docs (0, 0, []) (mkWorld (fs w0) (app (out w0) banner))) = inl e)
    by (rewrite Hc; reflexivity).
  apply convert_all_raises in Hr as [md [pdf [why [_ [Hn _]]]]]. exact (Hp _ _ Hn).
Qed.

(** C7 (as the code does it): a run that is not aborted by an uncaught
    exception goes through the jobs in list order, each exactly once. *)
Theorem jobs_in_order E docs w0 s f rs wF :
  main_with E docs w0 = (inr (s, f, rs), wF) ->
  map fst rs = docs.
Proof.
  intros Hm. apply main_with_completes in Hm as [_ [w2 [Hc _]]].
  apply convert_all_ok in Hc as [_ [rs2 [-> Hm]]]. exact Hm.
Qed.

(** C8 (as the code does it): a completed run prints the summary and then,
    for each job in list order, the size in megabytes of its PDF file if
    that file exists at the end, or a NOT FOUND marker; with the single job
    [("a.md", "a.pdf")], neither file on disk, it prints
    "0 successful, 1 failed" and lists [a.pdf] as NOT FOUND. *)
Theorem report_and_listing :
  (forall E docs w0 s f rs wF,
     main_with E docs w0 = (inr (s, f, rs), wF) ->
     exists before,
       out wF = app before (app (report s f) (map (listing_line (fs wF)) (map snd docs)))) /\
  (forall E w0,
     chdir_outcome E = ChdirOk ->
     fs w0 !! "a.md" = None -> fs w0 !! "a.pdf" = None ->
     exists wF,
       main_with E [("a.md", "a.pdf")] w0 =
         (inr (0, 1, [(("a.md", "a.pdf"), SourceMissing)]), wF) /\
       In "Summary: 0 successful, 1 failed" (out wF) /\
       In "  ✗ a.pdf (NOT FOUND)" (out wF)).
Proof.
  split.
  - intros E docs w0 s f rs wF Hm.
    apply main_with_completes in Hm as [_ [w2 [_ [HF Hout]]]].
    exists (out w2). rewrite Hout, HF, <- app_assoc. reflexivity.
  - intros E w0 Hwd Hmd Hpdf.
    rewrite main_with_eq, Hwd, convert_all_cons, job_step_missing by exact Hmd.
    eexists. split; [reflexivity|]. cbn -[rule summary_line].
    unfold listing_line. rewrite Hpdf. split.
    + apply in_or_app. left. apply in_or_app. right. right. left. reflexivity.
    + apply in_or_app. right. left. reflexivity.
Qed.

Lemma job_step_success E s f rs md pdf w err hs sz :
  is_Some (fs w !! md) ->
  replace_md_html md <> pdf ->
  pandoc E (cmd_html md (replace_md_html md)) = PandocRan 0 err (Some hs) ->
  weasyprint_import E = ImportOk ->
  render E (replace_md_html md) pdf = RenderOk sz ->
  remove_denied E (replace_md_html md) = false ->
  exists w',
    job_step E (s, f, rs) (md, pdf) w =
      (inr (S s, f, app rs [((md, pdf), Succeeded)]), w') /\
    fs w' = delete (replace_md_html md) (<[pdf:=sz]> (<[replace_md_html md:=hs]> (fs w))).
Proof.
  intros Hmd Hne Hp Hw Hr Hd.
  destruct (m2p_success E md pdf w err hs sz Hne Hp Hw Hr Hd) as [Ht Hfs].
  rewrite job_step_m2p_true by assumption. eexists. split; [reflexivity|exact Hfs].
Qed.

Lemma job_step_render_error E s f rs md pdf w err hs :
  is_Some (fs w !! md) ->
  pandoc E (cmd_html md (replace_md_html md)) = PandocRan 0 err (Some hs) ->
  (weasyprint_import E <> ImportOk \/
   exists msg, render E (replace_md_html md) pdf = RenderRaises msg) ->
  exists w',
    job_step E (s, f, rs) (md, pdf) w =
      (inr (s, S f, app rs [((md, pdf), ConversionFailed)]), w') /\
    fs w' = <[replace_md_html md:=hs]> (fs w).
Proof.
  intros Hmd Hp Hr.
  destruct (m2p_render_error E md pdf w err (Some hs) Hp Hr) as [Hf [Hfs _]].
  rewrite job_step_m2p_false by assumption. eexists. split; [reflexivity|exact Hfs].
Qed.

Lemma job_step_remove_refused E s f rs md pdf w err hs sz :
  is_Some (fs w !! md) ->
  replace_md_html md <> pdf ->
  pandoc E (cmd_html md (replace_md_html md)) = PandocRan 0 err (Some hs) ->
  weasyprint_import E = ImportOk ->
  render E (replace_md_html md) pdf = RenderOk sz ->
  remove_denied E (replace_md_html md) = true ->
  exists w',
    job_step E (s, f, rs) (md, pdf) w =
      (inr (s, S f, app rs [((md, pdf), ConversionFailed)]), w') /\
    fs w' = <[pdf:=sz]> (<[replace_md_html md:=hs]> (fs w)).
Proof.
  intros Hmd Hne Hp Hw Hr Hd.
  destruct (m2p_remove_refused E md pdf w err hs sz Hne Hp Hw Hr Hd) as [Hf Hfs].
  rewrite job_step_m2p_false by assumption. eexists. split; [reflexivity|exact Hfs].
Qed.

(** A job of [documents] inside a completed run of [main]. *)
Lemma main_job E w0 md pdf s f rs wF :
  In (md, pdf) documents ->
  main E w0 = (inr (s, f, rs), wF) ->
  replace_md_html md <> pdf /\
  exists s1 f1 rs1 w1 acc2 w2,
    fs w1 !! md = fs w0 !! md /\
    job_step E (s1, f1, rs1) (md, pdf) w1 = (inr acc2, w2) /\
    (forall r, acc2.2 = app rs1 [((md, pdf), r)] -> In ((md, pdf), r) rs) /\
    fs wF !! replace_md_html md = fs w2 !! replace_md_html md /\
    fs wF !! pdf = fs w2 !! pdf.
Proof.
  intros Hin Hm.
  destruct (documents_focus md pdf Hin) as [pre [post [Hd [Hu [Hh [Hp Hne]]]]]].
  unfold main in Hm. rewrite Hd in Hm.
  destruct (run_focus E pre md pdf post w0 s f rs wF Hu Hm)
    as [s1 [f1 [rs1 [w1 [acc2 [w2 [H1 [H2 [H3 H4]]]]]]]]].
  split; [exact Hne|].
  exists s1, f1, rs1, w1, acc2, w2. repeat split; auto.
Qed.

(** C1 (as the code does it): in a completed run, a job whose source
    exists, whose pandoc run exits 0 having written the HTML file, whose
    rendering succeeds and whose HTML file the OS lets the script delete, is
    recorded as Succeeded; after the run its PDF file holds what the
    renderer wrote and its HTML file is gone. *)
Theorem success_job_cleaned E w0 md pdf s f rs wF err hs sz :
  In (md, pdf) documents ->
  main E w0 = (inr (s, f, rs), wF) ->
  is_Some (fs w0 !! md) ->
  pandoc E (cmd_html md (replace_md_html md)) = PandocRan 0 err (Some hs) ->
  weasyprint_import E = ImportOk ->
  render E (replace_md_html md) pdf = RenderOk sz ->
  remove_denied E (replace_md_html md) = false ->
  In ((md, pdf), Succeeded) rs /\
  fs wF !! pdf = Some sz /\ fs wF !! replace_md_html md = None.
Proof.
  intros Hin Hm Hmd Hp Hw Hr Hd.
  destruct (main_job E w0 md pdf s f rs wF Hin Hm)
    as [Hne [s1 [f1 [rs1 [w1 [acc2 [w2 [H1 [H2 [H3 [H4 H5]]]]]]]]]]].
  rewrite <- H1 in Hmd.
  destruct (job_step_success E s1 f1 rs1 md pdf w1 err hs sz Hmd Hne Hp Hw Hr Hd)
    as [w' [Hj Hfs]].
  rewrite Hj in H2. injection H2 as <- <-.
  split; [apply H3; reflexivity|]. rewrite H4, H5, Hfs. split.
  - rewrite lookup_delete_ne by congruence. apply lookup_insert_eq.
  - apply lookup_delete_eq.
Qed.

(** C10: in a completed run, a job whose HTML file pandoc generated but
    whose rendering step raises keeps its HTML file after the run, and is
    recorded as failed; the cleanup happens only after a successful render,
    and when the OS refuses the deletion of the HTML file after the PDF was
    written, the job is recorded as failed as well. *)
Theorem failed_render_keeps_html :
  (forall E w0 md pdf s f rs wF err hs,
     In (md, pdf) documents ->
     main E w0 = (inr (s, f, rs), wF) ->
     is_Some (fs w0 !! md) ->
     pandoc E (cmd_html md (replace_md_html md)) = PandocRan 0 err (Some hs) ->
     (weasyprint_import E <> ImportOk \/
      exists msg, render E (replace_md_html md) pdf = RenderRaises msg) ->
     In ((md, pdf), ConversionFailed) rs /\ fs wF !! replace_md_html md = Some hs) /\
  (forall E w0 md pdf s f rs wF err hs sz,
     In (md, pdf) documents ->
     main E w0 = (inr (s, f, rs), wF) ->
     is_Some (fs w0 !! md) ->
     pandoc E (cmd_html md (replace_md_html md)) = PandocRan 0 err (Some hs) ->
     weasyprint_import E = ImportOk ->
     render E (replace_md_html md) pdf = RenderOk sz ->
     remove_denied E (replace_md_html md) = true ->
     In ((md, pdf), ConversionFailed) rs /\
     fs wF !! pdf = Some sz /\ fs wF !! replace_md_html md = Some hs).
Proof.
  split.
  - intros E w0 md pdf s f rs wF err hs Hin Hm Hmd Hp Hr.
    destruct (main_job E w0 md pdf s f rs wF Hin Hm)
      as [Hne [s1 [f1 [rs1 [w1 [acc2 [w2 [H1 [H2 [H3 [H4 H5]]]]]]]]]]].
    rewrite <- H1 in Hmd.
    destruct (job_step_render_error E s1 f1 rs1 md pdf w1 err hs Hmd Hp Hr) as [w' [Hj Hfs]].
    rewrite Hj in H2. injection H2 as <- <-.
    split; [apply H3; reflexivity|]. rewrite H4, Hfs. apply lookup_insert_eq.
  - intros E w0 md pdf s f rs wF err hs sz Hin Hm Hmd Hp Hw Hr Hd.
    destruct (main_job E w0 md pdf s f rs wF Hin Hm)
      as [Hne [s1 [f1 [rs1 [w1 [acc2 [w2 [H1 [H2 [H3 [H4 H5]]]]]]]]]]].
    rewrite <- H1 in Hmd.
    destruct (job_step_remove_refused E s1 f1 rs1 md pdf w1 err hs sz Hmd Hne Hp Hw Hr Hd)
      as [w' [Hj Hfs]].
    rewrite Hj in H2. injection H2 as <- <-.
    split; [apply H3; reflexivity|]. rewrite H4, H5, Hfs. split.
    + apply lookup_insert_eq.
    + rewrite lookup_insert_ne by congruence. apply lookup_insert_eq.
Qed.

Lemma replace_md_html_cons c t :
  replace_md_html (String c t) =
  match t with
  | String m (String d rest') =>
      if Ascii.eqb c "."%char && Ascii.eqb m "m"%char && Ascii.eqb d "d"%char
      then ".html" +:+ replace_md_html rest'
      else String c (replace_md_html t)
  | _ => String c (replace_md_html t)
  end.
Proof. reflexivity. Qed.

(** Where no ['.md'] starts, [replace] copies the character. *)
Lemma replace_md_html_nomatch c t :
  String.prefix ".md" (String c t) = false ->
  replace_md_html (String c t) = String c (replace_md_html t).
Proof.
  intros H. rewrite replace_md_html_cons.
  destruct t as [|m [|d t']]; try reflexivity.
  destruct (Ascii.eqb c "."%char) eqn:E1; [|reflexivity].
  destruct (Ascii.eqb m "m"%char) eqn:E2; [|reflexivity].
  destruct (Ascii.eqb d "d"%char) eqn:E3; [|reflexivity].
  apply Ascii.eqb_eq in E1, E2, E3. subst. destruct t'; discriminate H.
Qed.

Lemma prefix_cons a s1 b s2 :
  String.prefix (String a s1) (String b s2) =
  if Ascii.ascii_dec a b then String.prefix s1 s2 else false.
Proof. reflexivity. Qed.

(** A ['.md'] cannot start inside [String c a'] and end in a following
    ['.md'] unless it starts inside [String c a'] already. *)
Lemma prefix_md_app c a' b :
  String.prefix ".md" (String c a') = false ->
  String.prefix ".md" (String c (a' +:+ ".md" +:+ b)) = false.
Proof.
  intros H. rewrite prefix_cons in *.
  destruct (Ascii.ascii_dec "." c) as [<-|]; [|reflexivity].
  destruct a' as [|x [|y a'']]; [reflexivity| |].
  - change (String x "" +:+ ".md" +:+ b) with (String x (".md" +:+ b)).
    rewrite prefix_cons. destruct (Ascii.ascii_dec "m" x); reflexivity.
  - change (String x (String y a'') +:+ ".md" +:+ b)
      with (String x (String y (a'' +:+ ".md" +:+ b))).
    rewrite !prefix_cons in *.
    destruct (Ascii.ascii_dec "m" x); [|reflexivity].
    destruct (Ascii.ascii_dec "d" y); [destruct a''; discriminate H|reflexivity].
Qed.

(** C9: [md_file.replace('.md', '.html')] replaces the leftmost ['.md'] and
    goes on after it, so every occurrence is replaced; when ['.md'] occurs
    only as the final extension the result is the stem followed by
    ['.html']; on ['notes.md.md'] and ['a.mdx.md'] every occurrence is
    replaced. *)
Theorem html_name_replaces_all :
  (forall stem, str_contains ".md" stem = false ->
     replace_md_html (stem +:+ ".md") = stem +:+ ".html") /\
  (forall a b, str_contains ".md" a = false ->
     replace_md_html (a +:+ ".md" +:+ b) = a +:+ ".html" +:+ replace_md_html b) /\
  replace_md_html "notes.md.md" = "notes.html.html" /\
  replace_md_html "a.mdx.md" = "a.htmlx.html".
Proof.
  assert (Hall : forall a b, str_contains ".md" a = false ->
     replace_md_html (a +:+ ".md" +:+ b) = a +:+ ".html" +:+ replace_md_html b).
  { induction a as [|c a IH]; intros b H; [reflexivity|].
    cbn [str_contains] in H. apply orb_false_iff in H as [Hp Hc].
    change ((String c a) +:+ ".md" +:+ b) with (String c (a +:+ ".md" +:+ b)).
    rewrite replace_md_html_nomatch by (apply prefix_md_app; exact Hp).
    rewrite IH by exact Hc. reflexivity. }
  split; [|split; [exact Hall|split; reflexivity]].
  intros stem H. pose proof (Hall stem "" H) as Hs.
  change (".md" +:+ "") with ".md" in Hs.
  change (replace_md_html "") with "" in Hs.
  change (".html" +:+ "") with ".html" in Hs.
  exact Hs.
Qed.

(** ** Concrete runs *)

Definition env_ok : Env := {|
  chdir_outcome := ChdirOk;
  pandoc := fun _ => PandocRan 0 "" (Some 40960%N);
  weasyprint_import := ImportOk;
  render := fun _ _ => RenderOk 1572864%N;
  remove_denied := fun _ => false |}.

Definition env_pandoc_error : Env := {|
  chdir_outcome := ChdirOk;
  pandoc := fun _ => PandocRan 64 "pandoc: Unknown option --self-contained" None;
  weasyprint_import := ImportOk;
  render := fun _ _ => RenderOk 1572864%N;
  remove_denied := fun _ => false |}.

Definition env_no_weasyprint : Env := {|
  chdir_outcome := ChdirOk;
  pandoc := fun _ => PandocRan 0 "" (Some 40960%N);
  weasyprint_import := ImportRaisesImportError;
  render := fun _ _ => RenderOk 1572864%N;
  remove_denied := fun _ => false |}.

(** WeasyPrint is installed, but its native libraries cannot be loaded. *)
Definition env_broken_weasyprint : Env := {|
  chdir_outcome := ChdirOk;
  pandoc := fun _ => PandocRan 0 "" (Some 40960%N);
  weasyprint_import := ImportRaisesOSError "cannot load library 'libpango-1.0-0'";
  render := fun _ _ => RenderOk 1572864%N;
  remove_denied := fun _ => false |}.

Definition env_remove_refused : Env := {|
  chdir_outcome := ChdirOk;
  pandoc := fun _ => PandocRan 0 "" (Some 40960%N);
  weasyprint_import := ImportOk;
  render := fun _ _ => RenderOk 1572864%N;
  remove_denied := fun _ => true |}.

Definition env_no_pandoc : Env := {|
  chdir_outcome := ChdirOk;
  pandoc := fun _ => PandocNotLaunched LaunchNotFound;
  weasyprint_import := ImportOk;
  render := fun _ _ => RenderOk 1572864%N;
  remove_denied := fun _ => false |}.

(** The [pandoc] found on [PATH] is not executable. *)
Definition env_pandoc_denied : Env := {|
  chdir_outcome := ChdirOk;
  pandoc := fun _ => PandocNotLaunched LaunchDenied;
  weasyprint_import := ImportOk;
  render := fun _ _ => RenderOk 1572864%N;
  remove_denied := fun _ => false |}.

Definition env_no_workdir : Env := {|
  chdir_outcome := ChdirMissing;
  pandoc := fun _ => PandocRan 0 "" (Some 40960%N);
  weasyprint_import := ImportOk;
  render := fun _ _ => RenderOk 1572864%N;
  remove_denied := fun _ => false |}.

(** All three sources present, nothing else. *)
Definition w_sources : world :=
  mkWorld (<["REFERENCE_MANUAL.md":=52000%N]>
           (<["IMPLEMENTATION_GUIDE.md":=31000%N]>
            (<["ARCHITECTURE.md":=18000%N]> ∅))) [].

Definition w_empty : world := mkWorld ∅ [].

(** [a.md] absent, [a.pdf] left from an earlier run (3 MiB). *)
Definition w_stale_pdf : world := mkWorld (<["a.pdf":=3145728%N]> ∅) [].

(** ** Witnesses and counterexamples *)

(** Decide a closed decidable proposition by evaluating [bool_decide]. *)
Ltac decide_by_vm :=
  match goal with |- ?P => apply (bool_decide_eq_true_1 P); vm_compute; reflexivity end.

Definition job_ref : string * string := ("REFERENCE_MANUAL.md", "REFERENCE_MANUAL.pdf").
Definition job_impl : string * string := ("IMPLEMENTATION_GUIDE.md", "IMPLEMENTATION_GUIDE.pdf").
Definition job_arch : string * string := ("ARCHITECTURE.md", "ARCHITECTURE.pdf").

(** C1 fails as stated: every precondition holds for the first job, but the
    OS refuses to delete [REFERENCE_MANUAL.html]; the job is recorded as
    failed and its HTML file stays. *)
Lemma success_claim_refused_cleanup :
  In job_ref documents /\
  is_Some (fs w_sources !! "REFERENCE_MANUAL.md") /\
  pandoc env_remove_refused (cmd_html "REFERENCE_MANUAL.md" (replace_md_html "REFERENCE_MANUAL.md"))
    = PandocRan 0 "" (Some 40960%N) /\
  weasyprint_import env_remove_refused = ImportOk /\
  render env_remove_refused (replace_md_html "REFERENCE_MANUAL.md") "REFERENCE_MANUAL.pdf"
    = RenderOk 1572864%N /\
  fst (main env_remove_refused w_sources) =
    inr (0, 3, [(job_ref, ConversionFailed); (job_impl, ConversionFailed);
                (job_arch, ConversionFailed)]) /\
  fs (snd (main env_remove_refused w_sources)) !! "REFERENCE_MANUAL.html" = Some 40960%N.
Proof.
  split; [left; reflexivity|].
  split; [eexists; vm_compute; reflexivity|].
  repeat split; vm_compute; reflexivity.
Qed.

Lemma success_job_cleaned_witness :
  In (job_ref, Succeeded) [(job_ref, Succeeded); (job_impl, Succeeded); (job_arch, Succeeded)] /\
  fs (snd (main env_ok w_sources)) !! "REFERENCE_MANUAL.pdf" = Some 1572864%N /\
  fs (snd (main env_ok w_sources)) !! "REFERENCE_MANUAL.html" = None.
Proof.
  refine (success_job_cleaned env_ok w_sources "REFERENCE_MANUAL.md" "REFERENCE_MANUAL.pdf"
            3 0 [(job_ref, Succeeded); (job_impl, Succeeded); (job_arch, Succeeded)]
            (snd (main env_ok w_sources)) "" 40960%N 1572864%N _ _ _ _ _ _ _).
  - left; reflexivity.
  - vm_compute; reflexivity.
  - eexists; vm_compute; reflexivity.
  - reflexivity.
  - reflexivity.
  - reflexivity.
  - reflexivity.
Defined.

Lemma html_failure_recorded_witness :
  exists w',
    convert_all env_pandoc_error (job_ref :: drop 1 documents) (0, 0, []) w_sources =
      convert_all env_pandoc_error (drop 1 documents) (0, 1, app [] [(job_ref, ConversionFailed)]) w' /\
    fs w' = pandoc_writes (replace_md_html "REFERENCE_MANUAL.md") None (fs w_sources) /\
    (replace_md_html "REFERENCE_MANUAL.md" <> "REFERENCE_MANUAL.pdf" ->
     fs w' !! "REFERENCE_MANUAL.pdf" = fs w_sources !! "REFERENCE_MANUAL.pdf") /\
    In ("Error converting to HTML: " +:+ "pandoc: Unknown option --self-contained") (out w').
Proof.
  apply (html_failure_recorded env_pandoc_error "REFERENCE_MANUAL.md" "REFERENCE_MANUAL.pdf"
           (drop 1 documents) 0 0 [] w_sources 64 "pandoc: Unknown option --self-contained" None).
  - eexists; vm_compute; reflexivity.
  - reflexivity.
  - lia.
Defined.

(** The import of WeasyPrint raises an [OSError]: caught as well. *)
Lemma render_exception_caught_witness :
  exists w',
    convert_all env_broken_weasyprint (job_ref :: drop 1 documents) (0, 0, []) w_sources =
      convert_all env_broken_weasyprint (drop 1 documents)
        (0, 1, app [] [(job_ref, ConversionFailed)]) w' /\
    (weasyprint_import env_broken_weasyprint = ImportRaisesImportError ->
     In "Error: WeasyPrint not installed. Run: pip install weasyprint" (out w')) /\
    (forall msg, weasyprint_import env_broken_weasyprint = ImportRaisesOSError msg ->
     In ("Error converting to PDF: " +:+ msg) (out w')) /\
    (forall msg, weasyprint_import env_broken_weasyprint = ImportOk ->
     render env_broken_weasyprint (replace_md_html "REFERENCE_MANUAL.md") "REFERENCE_MANUAL.pdf"
       = RenderRaises msg ->
     In ("Error converting to PDF: " +:+ msg) (out w')).
Proof.
  apply (render_exception_caught env_broken_weasyprint "REFERENCE_MANUAL.md" "REFERENCE_MANUAL.pdf"
           (drop 1 documents) 0 0 [] w_sources "" (Some 40960%N)).
  - eexists; vm_compute; reflexivity.
  - reflexivity.
  - left; discriminate.
Defined.

Lemma missing_source_skipped_witness :
  convert_all env_ok (job_ref :: drop 1 documents) (0, 0, []) w_empty =
  convert_all env_ok (drop 1 documents) (0, 1, app [] [(job_ref, SourceMissing)])
    (mkWorld (fs w_empty)
       (app (app (out w_empty) ["⚠ File not found: " +:+ "REFERENCE_MANUAL.md"]) [""])).
Proof.
  apply (missing_source_skipped env_ok "REFERENCE_MANUAL.md" "REFERENCE_MANUAL.pdf"
           (drop 1 documents) 0 0 [] w_empty).
  vm_compute; reflexivity.
Defined.

(** All jobs fail here, and the counts still add up to three. *)
Lemma summary_counts_total_witness :
  0 + 3 = length documents /\ In (summary_line 0 3) (out (snd (main env_remove_refused w_sources))).
Proof.
  apply (summary_counts_total env_remove_refused documents w_sources 0 3
           [(job_ref, ConversionFailed); (job_impl, ConversionFailed); (job_arch, ConversionFailed)]
           (snd (main env_remove_refused w_sources))).
  vm_compute; reflexivity.
Defined.

(** C6 fails as stated: without a launchable pandoc, or without the
    hard-coded working directory, the script ends with an uncaught
    exception, exit status 1. *)
Lemma exit_status_not_unconditional :
  exit_status (main env_no_pandoc w_sources) = 1%Z /\
  exit_status (main env_no_workdir w_sources) = 1%Z.
Proof. split; vm_compute; reflexivity. Qed.

(** Every job fails (the HTML files cannot be deleted), and the exit status
    is 0. *)
Lemma exit_zero_when_launchable_witness :
  exit_status (main_with env_remove_refused documents w_sources) = 0%Z.
Proof.
  apply exit_zero_when_launchable.
  - reflexivity.
  - intros cmd. vm_compute. discriminate.
Defined.

(** C7 fails as stated: when pandoc cannot be launched, the first job's
    [subprocess.run] raises and the second and third jobs are never
    processed. *)
Lemma later_jobs_skipped_on_crash :
  fst (main env_no_pandoc w_sources) = inl (FileNotFoundError "pandoc") /\
  ("Converting IMPLEMENTATION_GUIDE.md to PDF..." ∉ out (snd (main env_no_pandoc w_sources))) /\
  ("⚠ File not found: IMPLEMENTATION_GUIDE.md" ∉ out (snd (main env_no_pandoc w_sources))) /\
  ("Converting ARCHITECTURE.md to PDF..." ∉ out (snd (main env_no_pandoc w_sources))) /\
  ("⚠ File not found: ARCHITECTURE.md" ∉ out (snd (main env_no_pandoc w_sources))).
Proof.
  split; [vm_compute; reflexivity|].
  repeat split; decide_by_vm.
Qed.

Lemma jobs_in_order_witness :
  map fst [(job_ref, Succeeded); (job_impl, Succeeded); (job_arch, Succeeded)] = documents.
Proof.
  apply (jobs_in_order env_ok documents w_sources 3 0
           [(job_ref, Succeeded); (job_impl, Succeeded); (job_arch, Succeeded)]
           (snd (main env_ok w_sources))).
  vm_compute; reflexivity.
Defined.

(** C8 fails as stated: with [a.md] absent but an [a.pdf] left from an
    earlier run, the listing shows [a.pdf] with its size, not NOT FOUND. *)
Lemma stale_pdf_listed :
  fs w_stale_pdf !! "a.md" = None /\
  fst (main_with env_ok [("a.md", "a.pdf")] w_stale_pdf) =
    inr (0, 1, [(("a.md", "a.pdf"), SourceMissing)]) /\
  ("Summary: 0 successful, 1 failed" ∈ out (snd (main_with env_ok [("a.md", "a.pdf")] w_stale_pdf))) /\
  ("  ✗ a.pdf (NOT FOUND)" ∉ out (snd (main_with env_ok [("a.md", "a.pdf")] w_stale_pdf))) /\
  ("  ✓ a.pdf (3.00 MB)" ∈ out (snd (main_with env_ok [("a.md", "a.pdf")] w_stale_pdf))).
Proof.
  split; [vm_compute; reflexivity|]. split; [vm_compute; reflexivity|].
  repeat split; decide_by_vm.
Qed.

Lemma report_and_listing_witness :
  (exists before,
     out (snd (main env_ok w_sources)) =
       app before (app (report 3 0)
         (map (listing_line (fs (snd (main env_ok w_sources)))) (map snd documents)))) /\
  (exists wF,
     main_with env_ok [("a.md", "a.pdf")] w_empty =
       (inr (0, 1, [(("a.md", "a.pdf"), SourceMissing)]), wF) /\
     In "Summary: 0 successful, 1 failed" (out wF) /\
     In "  ✗ a.pdf (NOT FOUND)" (out wF)).
Proof.
  split.
  - apply (proj1 report_and_listing env_ok documents w_sources 3 0
             [(job_ref, Succeeded); (job_impl, Succeeded); (job_arch, Succeeded)]
             (snd (main env_ok w_sources))).
    vm_compute; reflexivity.
  - apply (proj2 report_and_listing env_ok w_empty); vm_compute; reflexivity.
Defined.

Lemma html_name_replaces_all_witness :
  replace_md_html ("docs/intro" +:+ ".md") = "docs/intro" +:+ ".html" /\
  replace_md_html ("REFERENCE_MANUAL" +:+ ".md" +:+ "x.md") =
    "REFERENCE_MANUAL" +:+ ".html" +:+ replace_md_html "x.md".
Proof.
  split.
  - apply (proj1 html_name_replaces_all). vm_compute. reflexivity.
  - apply (proj1 (proj2 html_name_replaces_all)). vm_compute. reflexivity.
Defined.

Lemma failed_render_keeps_html_witness :
  (In (job_ref, ConversionFailed)
      [(job_ref, ConversionFailed); (job_impl, ConversionFailed); (job_arch, ConversionFailed)] /\
   fs (snd (main env_no_weasyprint w_sources)) !! replace_md_html "REFERENCE_MANUAL.md"
     = Some 40960%N) /\
  (In (job_ref, ConversionFailed)
      [(job_ref, ConversionFailed); (job_impl, ConversionFailed); (job_arch, ConversionFailed)] /\
   fs (snd (main env_remove_refused w_sources)) !! "REFERENCE_MANUAL.pdf" = Some 1572864%N /\
   fs (snd (main env_remove_refused w_sources)) !! replace_md_html "REFERENCE_MANUAL.md"
     = Some 40960%N).
Proof.
  split.
  - apply (proj1 failed_render_keeps_html env_no_weasyprint w_sources
             "REFERENCE_MANUAL.md" "REFERENCE_MANUAL.pdf" 0 3
             [(job_ref, ConversionFailed); (job_impl, ConversionFailed); (job_arch, ConversionFailed)]
             (snd (main env_no_weasyprint w_sources)) "" 40960%N).
    + left; reflexivity.
    + vm_compute; reflexivity.
    + eexists; vm_compute; reflexivity.
    + reflexivity.
    + left; discriminate.
  - apply (proj2 failed_render_keeps_html env_remove_refused w_sources
             "REFERENCE_MANUAL.md" "REFERENCE_MANUAL.pdf" 0 3
             [(job_ref, ConversionFailed); (job_impl, ConversionFailed); (job_arch, ConversionFailed)]
             (snd (main env_remove_refused w_sources)) "" 40960%N 1572864%N).
    + left; reflexivity.
    + vm_compute; reflexivity.
    + eexists; vm_compute; reflexivity.
    + reflexivity.
    + reflexivity.
    + reflexivity.
    + reflexivity.
Defined.


(** ** Further properties of [markdown_to_pdf] and [main] *)

(** The value [markdown_to_pdf] returns (or the exception it lets escape),
    in closed form. *)
Lemma m2p_result E md pdf w :
  fst (markdown_to_pdf E md pdf w) =
  match pandoc E (cmd_html md (replace_md_html md)) with
  | PandocNotLaunched why => inl (launch_exc why)
  | PandocRan rc _ wr =>
      if negb (rc =? 0)%Z then inr false
      else match weasyprint_import E with
      | ImportOk =>
        match render E (replace_md_html md) pdf with
        | RenderOk sz =>
            match <[pdf:=sz]> (pandoc_writes (replace_md_html md) wr (fs w))
                    !! replace_md_html md with
            | Some _ => if remove_denied E (replace_md_html md) then inr false else inr true
            | None => inr false
            end
        | RenderRaises _ => inr false
        end
      | _ => inr false
      end
  end.
Proof.
  unfold_prog. cbn.
  destruct (pandoc E _) as [why|rc err [hs|]]; [reflexivity| |];
    cbn; destruct (negb (rc =? 0)%Z); cbn; try reflexivity;
    destruct (weasyprint_import E); cbn; try reflexivity;
    destruct (render E _ _); cbn; try reflexivity;
    repeat case_match; simplify_eq/=; reflexivity.
Qed.

(** X1: [markdown_to_pdf] returns [True] exactly when pandoc exits 0,
    WeasyPrint imports, the rendering succeeds, the HTML file is present
    afterwards and the OS allows its deletion. *)
Theorem m2p_true_iff E md pdf w :
  fst (markdown_to_pdf E md pdf w) = inr true <->
  exists err wr sz,
    pandoc E (cmd_html md (replace_md_html md)) = PandocRan 0 err wr /\
    weasyprint_import E = ImportOk /\
    render E (replace_md_html md) pdf = RenderOk sz /\
    is_Some (<[pdf:=sz]> (pandoc_writes (replace_md_html md) wr (fs w)) !! replace_md_html md) /\
    remove_denied E (replace_md_html md) = false.
Proof.
  rewrite m2p_result. split.
  - destruct (pandoc E _) as [why|rc err wr]; [discriminate|].
    destruct (negb (rc =? 0)%Z) eqn:Hrc; [discriminate|].
    apply negb_false_iff, Z.eqb_eq in Hrc as ->.
    destruct (weasyprint_import E) eqn:Hw; [|discriminate..].
    destruct (render E _ _) as [sz|msg] eqn:Hr; [|discriminate].
    destruct (_ !! replace_md_html md) as [x|] eqn:Hl; [|discriminate].
    destruct (remove_denied E _) eqn:Hd; [discriminate|].
    intros _. exists err, wr, sz. repeat split; try reflexivity. rewrite Hl. eexists; reflexivity.
  - intros [err [wr [sz [Hp [Hw [Hr [[x Hl] Hd]]]]]]].
    rewrite Hp, Hw, Hr, Hl, Hd. reflexivity.
Qed.

(** A name without ['.md'] is left as it is by [replace('.md', '.html')]. *)
Lemma replace_md_html_no_md s :
  str_contains ".md" s = false -> replace_md_html s = s.
Proof.
  induction s as [|c t IH]; intros H; [reflexivity|].
  cbn [str_contains] in H. apply orb_false_iff in H as [Hp Hc].
  rewrite replace_md_html_nomatch by exact Hp. rewrite IH by exact Hc. reflexivity.
Qed.

(** X2: for a source name with no ['.md'] in it (say [README]), the HTML
    name is the source name itself: pandoc overwrites the source, and a
    successful conversion then deletes the Markdown source file. *)
Theorem m2p_deletes_source_without_md E md pdf w err wr sz :
  str_contains ".md" md = false ->
  md <> pdf ->
  pandoc E (cmd_html md md) = PandocRan 0 err wr ->
  weasyprint_import E = ImportOk ->
  render E md pdf = RenderOk sz ->
  remove_denied E md = false ->
  is_Some (fs w !! md) ->
  replace_md_html md = md /\
  fst (markdown_to_pdf E md pdf w) = inr true /\
  fs (snd (markdown_to_pdf E md pdf w)) !! md = None.
Proof.
  intros Hno Hne Hp Hw Hr Hd [x Hmd].
  pose proof (replace_md_html_no_md md Hno) as Hrep.
  split; [exact Hrep|].
  unfold_prog. cbn. rewrite Hrep, Hp. cbn. rewrite Hw. cbn. rewrite Hr. cbn.
  destruct wr as [hs|]; cbn;
    rewrite lookup_insert_ne by congruence;
    [rewrite lookup_insert_eq|rewrite Hmd]; cbn; rewrite Hd; cbn;
    (split; [reflexivity|apply lookup_delete_eq]).
Qed.

(** The result of [replace] starts with [d] only if its input does. *)
Lemma replace_md_html_head_d s r :
  replace_md_html s = String "d" r -> exists r', s = String "d" r'.
Proof.
  destruct s as [|c t]; [discriminate|]. rewrite replace_md_html_cons.
  destruct t as [|m [|d t']];
    [intros H; injection H as -> _; eexists; reflexivity
    |intros H; injection H as -> _; eexists; reflexivity|].
  destruct (Ascii.eqb c "."%char && Ascii.eqb m "m"%char && Ascii.eqb d "d"%char);
    [discriminate|].
  intros H; injection H as -> _; eexists; reflexivity.
Qed.

(** The result of [replace] starts with [md] only if its input does. *)
Lemma replace_md_html_head_md s r :
  replace_md_html s = String "m" (String "d" r) ->
  exists r', s = String "m" (String "d" r').
Proof.
  destruct s as [|c t]; [discriminate|]. rewrite replace_md_html_cons.
  assert (Hcopy : String c (replace_md_html t) = String "m" (String "d" r) ->
                  exists r', String c t = String "m" (String "d" r')).
  { intros H. injection H as -> Ht. apply replace_md_html_head_d in Ht as [r' ->].
    eexists; reflexivity. }
  destruct t as [|m [|d t']]; [exact Hcopy|exact Hcopy|].
  destruct (Ascii.eqb c "."%char && Ascii.eqb m "m"%char && Ascii.eqb d "d"%char);
    [discriminate|exact Hcopy].
Qed.

Lemma str_contains_html s :
  str_contains ".md" (".html" +:+ s) = str_contains ".md" s.
Proof. reflexivity. Qed.

(** X3: the HTML name [md_file.replace('.md', '.html')] never contains
    ['.md'], whatever the source name. *)
Theorem replace_md_html_clean s :
  str_contains ".md" (replace_md_html s) = false.
Proof.
  remember (String.length s) as n eqn:Hn.
  revert s Hn; induction (lt_wf n) as [n _ IH]; intros s Hn; subst n.
  destruct s as [|c t]; [reflexivity|].
  assert (Hcopy : String.prefix ".md" (String c t) = false ->
                  str_contains ".md" (String c (replace_md_html t)) = false).
  { intros Hp. cbn [str_contains]. apply orb_false_iff. split.
    - destruct (String.prefix ".md" (String c (replace_md_html t))) eqn:Hq; [|reflexivity].
      exfalso. rewrite prefix_cons in Hq, Hp.
      destruct (Ascii.ascii_dec "." c) as [<-|]; [|discriminate].
      destruct (replace_md_html t) as [|m r0] eqn:Ht; [discriminate|].
      rewrite prefix_cons in Hq.
      destruct (Ascii.ascii_dec "m" m) as [<-|]; [|discriminate].
      destruct r0 as [|d r]; [discriminate|].
      rewrite prefix_cons in Hq.
      destruct (Ascii.ascii_dec "d" d) as [<-|]; [|discriminate].
      apply replace_md_html_head_md in Ht as [r' ->].
      rewrite !prefix_cons in Hp. destruct r'; discriminate Hp.
    - apply (IH (String.length t)); [cbn; lia|reflexivity]. }
  rewrite replace_md_html_cons.
  destruct t as [|m [|d t']].
  { apply Hcopy. rewrite prefix_cons. destruct (Ascii.ascii_dec "." c); reflexivity. }
  { apply Hcopy. rewrite !prefix_cons.
    destruct (Ascii.ascii_dec "." c); [|reflexivity].
    destruct (Ascii.ascii_dec "m" m); reflexivity. }
  destruct (Ascii.eqb c "."%char) eqn:E1;
  destruct (Ascii.eqb m "m"%char) eqn:E2;
  destruct (Ascii.eqb d "d"%char) eqn:E3; cbn [andb];
    try (apply Hcopy; rewrite !prefix_cons;
         destruct (Ascii.ascii_dec "." c) as [<-|]; [|reflexivity];
         destruct (Ascii.ascii_dec "m" m) as [<-|]; [|reflexivity];
         destruct (Ascii.ascii_dec "d" d) as [<-|]; [|reflexivity];
         discriminate).
  rewrite str_contains_html. apply (IH (String.length t')); [cbn; lia|reflexivity].
Qed.

(** X4: [main] changes no file other than the HTML and PDF files of its jobs,
    whatever happens (also when it ends with an uncaught exception); in
    particular the script never changes or deletes the three Markdown
    sources of [documents]. *)
Theorem main_with_frame :
  (forall E docs w0 p, untouched p docs = true ->
     fs (snd (main_with E docs w0)) !! p = fs w0 !! p) /\
  (forall E w0 md pdf, In (md, pdf) documents ->
     fs (snd (main E w0)) !! md = fs w0 !! md).
Proof.
  assert (Hgen : forall E docs w0 p, untouched p docs = true ->
     fs (snd (main_with E docs w0)) !! p = fs w0 !! p).
  { intros E docs w0 p Hu. rewrite main_with_eq.
    destruct (chdir_outcome E); [|reflexivity..].
    pose proof (convert_all_frame E docs (0, 0, []) (mkWorld (fs w0) (app (out w0) banner)) p Hu) as Hf.
    destruct (convert_all E docs (0, 0, []) (mkWorld (fs w0) (app (out w0) banner)))
      as [[e|[[s f] rs]] w']; exact Hf. }
  split; [exact Hgen|].
  intros E w0 md pdf Hin. apply Hgen.
  destruct Hin as [H|[H|[H|[]]]]; injection H as <- <-; vm_compute; reflexivity.
Qed.

(** X5: the exceptions that escape [main] are exactly those of [os.chdir]
    (the working directory is missing, cannot be entered, or is a file;
    then nothing is printed and no file is touched) and those that
    [subprocess.run] raises when pandoc cannot be launched for a job; no
    exception of the rendering step, of the cleanup or of the listing
    escapes. *)
Theorem main_with_uncaught E docs w0 e :
  fst (main_with E docs w0) = inl e ->
  (((chdir_outcome E = ChdirMissing /\ e = FileNotFoundError workdir) \/
    (chdir_outcome E = ChdirDenied /\ e = PermissionError workdir) \/
    (chdir_outcome E = ChdirNotADirectory /\ e = NotADirectoryError workdir)) /\
   snd (main_with E docs w0) = w0) \/
  (chdir_outcome E = ChdirOk /\
   exists md pdf why, In (md, pdf) docs /\
     pandoc E (cmd_html md (replace_md_html md)) = PandocNotLaunched why /\
     e = launch_exc why).
Proof.
  rewrite main_with_eq.
  destruct (chdir_outcome E) eqn:Hwd.
  - destruct (convert_all E docs (0, 0, []) (mkWorld (fs w0) (app (out w0) banner)))
      as [[e'|[[s f] rs]] w'] eqn:Hc; [|discriminate].
    cbn. intros H. injection H as <-. right. split; [reflexivity|].
    apply (convert_all_raises E docs (0, 0, []) (mkWorld (fs w0) (app (out w0) banner)) e').
    rewrite Hc. reflexivity.
  - cbn. intros H. injection H as <-. left. auto.
  - cbn. intros H. injection H as <-. left. auto.
  - cbn. intros H. injection H as <-. left. auto.
Qed.

Global Instance JobResult_eq_dec : EqDecision JobResult.
Proof. solve_decision. Defined.

(** The number of jobs recorded with outcome [Succeeded], and with another
    outcome. *)
Definition count_succeeded (rs : list ((string * string) * JobResult)) : nat :=
  length (filter (fun x => x.2 = Succeeded) rs).
Definition count_failed (rs : list ((string * string) * JobResult)) : nat :=
  length (filter (fun x => x.2 <> Succeeded) rs).

Lemma count_cons_succeeded job l :
  count_succeeded ((job, Succeeded) :: l) = S (count_succeeded l) /\
  count_failed ((job, Succeeded) :: l) = count_failed l.
Proof.
  unfold count_succeeded, count_failed. rewrite !filter_cons.
  rewrite decide_True by reflexivity. rewrite decide_False by (intros HH; apply HH; reflexivity).
  split; reflexivity.
Qed.

Lemma count_cons_other job r l : r <> Succeeded ->
  count_succeeded ((job, r) :: l) = count_succeeded l /\
  count_failed ((job, r) :: l) = S (count_failed l).
Proof.
  intros Hr. unfold count_succeeded, count_failed. rewrite !filter_cons.
  rewrite decide_False by exact Hr. rewrite decide_True by exact Hr.
  split; reflexivity.
Qed.

Lemma convert_all_counts E docs s f rs w s' f' rs' w' :
  convert_all E docs (s, f, rs) w = (inr (s', f', rs'), w') ->
  exists rs2, rs' = app rs rs2 /\
    s' = s + count_succeeded rs2 /\ f' = f + count_failed rs2.
Proof.
  revert s f rs w; induction docs as [|job rest IH]; intros s f rs w H.
  - cbn in H. injection H as <- <- <- _. exists nil.
    rewrite app_nil_r. unfold count_succeeded, count_failed. cbn. repeat split; lia.
  - rewrite convert_all_cons in H.
    destruct (job_step E (s, f, rs) job w) as [[e|acc1] w1] eqn:Hj; [discriminate|].
    apply job_step_counts in Hj as [->|[r [Hr ->]]];
      apply IH in H as [rs2 [-> [-> ->]]].
    + exists ((job, Succeeded) :: rs2). rewrite <- app_assoc.
      destruct (count_cons_succeeded job rs2) as [-> ->]. repeat split; lia.
    + exists ((job, r) :: rs2). rewrite <- app_assoc.
      destruct (count_cons_other job r rs2 Hr) as [-> ->]. repeat split; lia.
Qed.

(** X6: in a completed run the success counter is the number of jobs
    recorded as Succeeded and the failure counter the number of the others
    (SourceMissing and ConversionFailed together). *)
Theorem main_with_counts E docs w0 s f rs wF :
  main_with E docs w0 = (inr (s, f, rs), wF) ->
  s = count_succeeded rs /\ f = count_failed rs.
Proof.
  intros Hm. apply main_with_completes in Hm as [_ [w2 [Hc _]]].
  apply convert_all_counts in Hc as [rs2 [-> [-> ->]]]. cbn. split; reflexivity.
Qed.

Lemma convert_all_all_missing E docs s f rs w :
  (forall md pdf, In (md, pdf) docs -> fs w !! md = None) ->
  exists w', convert_all E docs (s, f, rs) w =
    (inr (s, f + length docs, app rs (map (fun j => (j, SourceMissing)) docs)), w') /\
    fs w' = fs w.
Proof.
  revert s f rs w; induction docs as [|[md pdf] rest IH]; intros s f rs w Hall.
  - exists w. rewrite app_nil_r, Nat.add_0_r. split; reflexivity.
  - rewrite convert_all_cons, job_step_missing by (apply (Hall md pdf); left; reflexivity).
    destruct (IH s (S f) (app rs [((md, pdf), SourceMissing)])
                (mkWorld (fs w) (app (app (out w) ["⚠ File not found: " +:+ md]) [""])))
      as [w' [Hc Hfs]].
    { intros md' pdf' Hin. apply (Hall md' pdf'). right. exact Hin. }
    exists w'. rewrite Hc, <- app_assoc. cbn [length]. rewrite Nat.add_succ_r.
    split; [reflexivity|exact Hfs].
Qed.

(** X7: when [os.chdir] enters the working directory and none of the Markdown sources
    is present, [main] completes (even when pandoc is not installed: it is
    never called), records every job as SourceMissing with zero successes
    and [length docs] failures, and leaves the files unchanged. *)
Theorem main_with_all_missing E docs w0 :
  chdir_outcome E = ChdirOk ->
  (forall md pdf, In (md, pdf) docs -> fs w0 !! md = None) ->
  exists wF, main_with E docs w0 =
    (inr (0, length docs, map (fun j => (j, SourceMissing)) docs), wF) /\
    fs wF = fs w0.
Proof.
  intros Hwd Hall. rewrite main_with_eq, Hwd.
  destruct (convert_all_all_missing E docs 0 0 [] (mkWorld (fs w0) (app (out w0) banner)) Hall)
    as [w' [Hc Hfs]].
  rewrite Hc. eexists. split; [reflexivity|exact Hfs].
Qed.

(** X8: the [:.2f] size of the PDF listing shows "0.00" MB for every file of
    at most 5242 bytes, and exactly [k] followed by ".00" for a file of
    [k] MiB. *)
Theorem fmt_mb_edges :
  (forall sz, (sz <= 5242)%N -> fmt_mb sz = "0.00") /\
  (forall k, fmt_mb (k * 1048576) = pretty (Z.of_N k) +:+ ".00").
Proof.
  split.
  - intros sz Hsz. unfold fmt_mb, fmt_2f, round_half_even.
    assert (Hq : (100 * Z.of_N sz / (1024 * 1024) = 0)%Z) by (apply Z.div_small; lia).
    assert (Hr : (100 * Z.of_N sz mod (1024 * 1024) = 100 * Z.of_N sz)%Z) by (apply Z.mod_small; lia).
    rewrite Hq, Hr. replace (2 * (100 * Z.of_N sz) <? 1024 * 1024)%Z with true
      by (symmetry; apply Z.ltb_lt; lia).
    vm_compute. reflexivity.
  - intros k. unfold fmt_mb, fmt_2f, round_half_even.
    rewrite N2Z.inj_mul.
    replace (100 * (Z.of_N k * Z.of_N 1048576))%Z with ((100 * Z.of_N k) * (1024 * 1024))%Z by lia.
    rewrite Z.div_mul, Z.mod_mul by lia.
    replace (2 * 0 <? 1024 * 1024)%Z with true by reflexivity.
    cbn zeta.
    replace (100 * Z.of_N k)%Z with (Z.of_N k * 100)%Z by lia.
    rewrite Z.div_mul, Z.mod_mul by lia. reflexivity.
Qed.

(** X9: when the PDF target is the intermediate HTML file itself, a fully
    successful run reports True although the clean-up step has deleted the
    PDF it just wrote: no file is left at the target. *)
Theorem m2p_pdf_is_html E md pdf w err wr sz :
  replace_md_html md = pdf ->
  pandoc E (cmd_html md (replace_md_html md)) = PandocRan 0 err wr ->
  weasyprint_import E = ImportOk ->
  render E (replace_md_html md) pdf = RenderOk sz ->
  remove_denied E (replace_md_html md) = false ->
  fst (markdown_to_pdf E md pdf w) = inr true /\
  fs (snd (markdown_to_pdf E md pdf w)) !! pdf = None.
Proof.
  intros Heq Hp Hw Hr Hd.
  unfold_prog. cbn. rewrite Hp. cbn. rewrite Hw. cbn. rewrite Hr. cbn.
  rewrite Heq in *.
  destruct wr as [hs|]; cbn;
    rewrite lookup_insert_eq; cbn; rewrite Hd; cbn;
    (split; [reflexivity|apply lookup_delete_eq]).
Qed.

Lemma m2p_deletes_source_without_md_witness :
  replace_md_html "README" = "README" /\
  fst (markdown_to_pdf env_ok "README" "README.pdf" (mkWorld (<["README":=100%N]> ∅) [])) = inr true /\
  fs (snd (markdown_to_pdf env_ok "README" "README.pdf" (mkWorld (<["README":=100%N]> ∅) [])))
    !! "README" = None.
Proof.
  apply (m2p_deletes_source_without_md env_ok "README" "README.pdf"
           (mkWorld (<["README":=100%N]> ∅) []) "" (Some 40960%N) 1572864%N).
  - reflexivity.
  - discriminate.
  - reflexivity.
  - reflexivity.
  - reflexivity.
  - reflexivity.
  - eexists; vm_compute; reflexivity.
Defined.

Lemma main_with_frame_witness :
  fs (snd (main_with env_no_pandoc documents w_sources)) !! "REFERENCE_MANUAL.md" =
    fs w_sources !! "REFERENCE_MANUAL.md" /\
  fs (snd (main env_ok w_sources)) !! "ARCHITECTURE.md" = fs w_sources !! "ARCHITECTURE.md".
Proof.
  split.
  - apply (proj1 main_with_frame env_no_pandoc documents w_sources "REFERENCE_MANUAL.md").
    vm_compute; reflexivity.
  - apply (proj2 main_with_frame env_ok w_sources "ARCHITECTURE.md" "ARCHITECTURE.pdf").
    right; right; left; reflexivity.
Defined.

Lemma main_with_uncaught_witness :
  (((chdir_outcome env_pandoc_denied = ChdirMissing /\
     PermissionError "pandoc" = FileNotFoundError workdir) \/
    (chdir_outcome env_pandoc_denied = ChdirDenied /\
     PermissionError "pandoc" = PermissionError workdir) \/
    (chdir_outcome env_pandoc_denied = ChdirNotADirectory /\
     PermissionError "pandoc" = NotADirectoryError workdir)) /\
   snd (main_with env_pandoc_denied documents w_sources) = w_sources) \/
  (chdir_outcome env_pandoc_denied = ChdirOk /\
   exists md pdf why, In (md, pdf) documents /\
     pandoc env_pandoc_denied (cmd_html md (replace_md_html md)) = PandocNotLaunched why /\
     PermissionError "pandoc" = launch_exc why).
Proof.
  apply (main_with_uncaught env_pandoc_denied documents w_sources (PermissionError "pandoc")).
  vm_compute; reflexivity.
Defined.

Lemma main_with_counts_witness :
  3 = count_succeeded [(job_ref, Succeeded); (job_impl, Succeeded); (job_arch, Succeeded)] /\
  0 = count_failed [(job_ref, Succeeded); (job_impl, Succeeded); (job_arch, Succeeded)].
Proof.
  apply (main_with_counts env_ok documents w_sources 3 0
           [(job_ref, Succeeded); (job_impl, Succeeded); (job_arch, Succeeded)]
           (snd (main env_ok w_sources))).
  vm_compute; reflexivity.
Defined.

Lemma main_with_all_missing_witness :
  exists wF, main_with env_no_pandoc documents w_empty =
    (inr (0, length documents, map (fun j => (j, SourceMissing)) documents), wF) /\
    fs wF = fs w_empty.
Proof.
  apply (main_with_all_missing env_no_pandoc documents w_empty).
  - reflexivity.
  - intros md pdf Hin. apply lookup_empty.
Defined.

Lemma fmt_mb_edges_witness : fmt_mb 5242 = "0.00" /\ fmt_mb (3 * 1048576) = pretty 3%Z +:+ ".00".
Proof.
  split.
  - apply (proj1 fmt_mb_edges 5242%N). lia.
  - apply (proj2 fmt_mb_edges 3%N).
Defined.

Lemma m2p_pdf_is_html_witness :
  fst (markdown_to_pdf env_ok "a.md" "a.html" w_empty) = inr true /\
  fs (snd (markdown_to_pdf env_ok "a.md" "a.html" w_empty)) !! "a.html" = None.
Proof.
  apply (m2p_pdf_is_html env_ok "a.md" "a.html" w_empty "" (Some 40960%N) 1572864%N);
    reflexivity.
Defined.
